(** * pubmed-scraper: a shallow embedding of [src/pubmed/pubmed-scraper.py]

    The development follows the source file top to bottom: Python strings
    and the two [str] methods the extractor calls, the exceptions and the
    effect monad, the external capabilities (file system, HTTP transport,
    HTML engine, data frames), then the five functions of the script and
    [main], and finally the properties. *)

From stdpp Require Import base option list strings gmap.
From Stdlib Require Import ZArith NArith Lia.

Local Open Scope list_scope.

(** ** Python strings *)

Module PyStr.

(** A Python [str] is a sequence of Unicode code points. *)
Definition codepoint := N.
Definition pystr := list codepoint.

(** String literals of the source, which are all ASCII. *)
Definition str (s : string) : pystr := Ascii.N_of_ascii <$> String.list_ascii_of_string s.

(** [str.isspace] on one code point: the characters [str.strip()]
    (called without argument) removes. *)
Definition isspace (c : codepoint) : bool :=
  ((9 <=? c) && (c <=? 13) || (28 <=? c) && (c <=? 32)
   || (c =? 133) || (c =? 160) || (c =? 5760)
   || (8192 <=? c) && (c <=? 8202)
   || (c =? 8232) || (c =? 8233) || (c =? 8239) || (c =? 8287)
   || (c =? 12288))%N.

Fixpoint lstrip (s : pystr) : pystr :=
  match s with
  | c :: s' => if isspace c then lstrip s' else s
  | [] => []
  end.

Definition rstrip (s : pystr) : pystr := rev (lstrip (rev s)).

(** [s.strip()] *)
Definition strip (s : pystr) : pystr := rstrip (lstrip s).

Fixpoint startswith (s old : pystr) : bool :=
  match old, s with
  | [], _ => true
  | o :: old', c :: s' => (c =? o)%N && startswith s' old'
  | _ :: _, [] => false
  end.

(** The left-to-right scan of [s.replace(old, new)] for a non-empty
    [old]: [skip] counts the characters of a match still to be dropped. *)
Fixpoint replace_scan (skip : nat) (old new s : pystr) : pystr :=
  match s with
  | [] => []
  | c :: s' =>
      match skip with
      | S k => replace_scan k old new s'
      | O =>
          if startswith s old
          then new ++ replace_scan (length old - 1) old new s'
          else c :: replace_scan 0 old new s'
      end
  end.

(** [s.replace(old, new)], no count: every non-overlapping occurrence,
    from the left; an empty [old] matches at every gap. *)
Definition replace (s old new : pystr) : pystr :=
  match old with
  | [] => new ++ flat_map (fun c => c :: new) s
  | _ :: _ => replace_scan 0 old new s
  end.

(** The position of the first occurrence of [old] in [s], [s.find(old)]. *)
Fixpoint str_find (s old : pystr) : option nat :=
  if startswith s old then Some 0
  else match s with
       | [] => None
       | _ :: s' => S <$> str_find s' old
       end.

End PyStr.

Import PyStr.

(** ** Data of the script *)

Definition DATA_FILE_NAME : string := "pubmed_data.csv".

(** [@dataclass class PubEntry] *)
Record PubEntry := { bold_text : pystr; content_text : pystr }.

(** The table ['scrape-params'] of [request.toml]. *)
Record scrape_params := {
  research_code : list pystr;
  url : pystr;
  selector : pystr
}.

(** The dict [p] returned by [get_params]: [{'url': ..., 'selector': ...}]. *)
Record params_dict := { p_url : list pystr; p_selector : pystr }.

(** One element of [data['text']]:
    [{f'section_{index}': {'bold_text': ..., 'content_text': ...}}]. *)
Record section_dict := { section_index : nat; section_entry : PubEntry }.

(** The dict [data] handed to [insert_data]: [{'url': ..., 'text': [...]}]. *)
Record page_data := { d_url : pystr; d_text : list section_dict }.

(** ** Data frames (pandas)

    A frame has its column labels in order and its rows in order; a row maps
    a column label to its cell, and a label without a cell is a missing
    value (NaN). *)

Inductive cell :=
| CStr (s : pystr)
| CSection (sec : section_dict).

Record DataFrame := { columns : list string; rows : list (gmap string cell) }.

(** [pd.DataFrame()] *)
Definition DataFrame_empty : DataFrame := {| columns := []; rows := [] |}.

(** [pd.DataFrame.from_dict(data)] for [data = {'url': <str>, 'text': <list>}]
    (orient ['columns']): the list gives the index, one row per element, and
    the scalar under ['url'] is broadcast to every row. *)
Definition from_dict (data : page_data) : DataFrame :=
  {| columns := ["url"; "text"]%string;
     rows := (fun sec => <["url"%string := CStr (d_url data)]>
                         (<["text"%string := CSection sec]> ∅))
             <$> d_text data |}.

(** [pd.concat([a, b], ignore_index=True)]: the rows of [a] then the rows of
    [b]; the columns of [a] followed by those only [b] has. *)
Definition concat (a b : DataFrame) : DataFrame :=
  {| columns := columns a ++ filter (fun c => c ∉ columns a) (columns b);
     rows := rows a ++ rows b |}.

(** ** The world outside the interpreter *)

(** What [os.path.exists('output')] can find. *)
Inductive kind := Directory | RegularFile.

(** The text of the dataset file, by what [pd.read_csv] makes of it: no
    bytes at all, the rendering [to_csv(index=False)] gives of a frame, or a
    text the tokenizer rejects (a data line with more fields than the
    header, say). *)
Inductive csv_text :=
| Blank
| Rendered (df : DataFrame)
| Ragged.

(** The three paths the script touches: [request.toml] (absent, or the
    document [toml.load] reads from it), [output], and
    [output/pubmed_data.csv]. *)
Record filesystem := {
  request_toml : option (gmap string scrape_params);
  output : option kind;
  pubmed_data_csv : option csv_text
}.

Inductive exn :=
| FileNotFoundError (path : string)
| FileExistsError (path : string)
| NotADirectoryError (path : string)
| OSError (path : string)
| KeyError (key : string)
| UnboundLocalError (name : string)
| SystemExit (code : Z)
| HTTPError
| ConnectionError
| EmptyDataError
| ParserError.

Record world := {
  fs : filesystem;
  stdout : list exn;            (* what [print] was given, oldest first *)
  sessions_created : nat;       (* [HTMLSession()] calls so far *)
  open_sessions : gset nat      (* sessions not yet closed *)
}.

Definition set_fs (f : filesystem → filesystem) (w : world) : world :=
  {| fs := f (fs w); stdout := stdout w;
     sessions_created := sessions_created w; open_sessions := open_sessions w |}.

(** ** Control flow: normal completion or a raised exception, over a state *)

Inductive outcome (A : Type) :=
| Normal (a : A)
| Raise (e : exn).
Arguments Normal {A} a.
Arguments Raise {A} e.

Definition M (S A : Type) : Type := S → outcome A * S.

#[global] Instance M_ret {S} : MRet (M S) :=
  fun A a s => (Normal a, s).

#[global] Instance M_bind {S} : MBind (M S) :=
  fun A B k m s => match m s with
                   | (Normal a, s') => k a s'
                   | (Raise e, s') => (Raise e, s')
                   end.

Definition raise {S A} (e : exn) : M S A := fun s => (Raise e, s).

(** [try: body except <catches> as e: handler e] *)
Definition try_except {S A} (body : M S A) (catches : exn → bool)
    (handler : exn → M S A) : M S A :=
  fun s => match body s with
           | (Raise e, s') => if catches e then handler e s' else (Raise e, s')
           | r => r
           end.

(** [try: body finally: fin], for a [fin] that falls through its end: the
    outcome of [body] stands unless [fin] itself raises. *)
Definition try_finally {S A B} (body : M S A) (fin : M S B) : M S A :=
  fun s => match body s with
           | (r, s') => match fin s' with
                        | (Normal _, s'') => (r, s'')
                        | (Raise e, s'') => (Raise e, s'')
                        end
           end.

(** [try: body finally: fin], for a [fin] that ends in [return]: whether
    [body] completed or raised, the pending outcome is dropped and [fin]
    decides (its [return] value, or the exception it raises on the way). *)
Definition try_finally_return {S A B} (body : M S A) (fin : M S B) : M S B :=
  fun s => fin (snd (body s)).

(** [for x in xs: body x] *)
Fixpoint for_each {S A} (xs : list A) (body : A → M S unit) : M S unit :=
  match xs with
  | [] => mret tt
  | x :: xs' => body x ;; for_each xs' body
  end.

(** A function call: a fresh frame of locals [l0], dropped on the way out. *)
Definition call {S L A} (l0 : L) (body : M (S * L) A) : M S A :=
  fun s => let '(r, (s', _)) := body (s, l0) in (r, s').

(** A statement on the world, run inside a frame. *)
Definition lift {S L A} (m : M S A) : M (S * L) A :=
  fun sl => let '(r, s') := m (fst sl) in (r, (s', snd sl)).

(** Reading the local variable [name]: unbound raises. *)
Definition local {S L A} (name : string) (get : L → option A) : M (S * L) A :=
  fun sl => match get (snd sl) with
            | Some a => (Normal a, sl)
            | None => (Raise (UnboundLocalError name), sl)
            end.

Definition assign {S L} (set : L → L) : M (S * L) unit :=
  fun sl => (Normal tt, (fst sl, set (snd sl))).

(** The exit status of the process for the outcome of [main]: an uncaught
    [SystemExit(n)] gives [n], any other uncaught exception the traceback
    and status 1. *)
Definition exit_status {A} (r : outcome A) : Z :=
  match r with
  | Normal _ => 0
  | Raise (SystemExit n) => n
  | Raise _ => 1
  end.

(** ** External capabilities *)

(** *** [os] and the built-in [open], [print], [sys.exit] *)

Definition data_path : string := "output/" +:+ DATA_FILE_NAME.

(** Resolving [output/pubmed_data.csv]. *)
Definition resolve_data (f : filesystem) : outcome csv_text :=
  match output f with
  | None => Raise (FileNotFoundError data_path)
  | Some RegularFile => Raise (NotADirectoryError data_path)
  | Some Directory =>
      match pubmed_data_csv f with
      | None => Raise (FileNotFoundError data_path)
      | Some t => Normal t
      end
  end.

Definition write_data (t : csv_text) (f : filesystem) : filesystem :=
  {| request_toml := request_toml f; output := output f;
     pubmed_data_csv := Some t |}.

(** [os.path.exists('output')] *)
Definition exists_output : M world bool :=
  fun w => (Normal (match output (fs w) with
                    | Some _ => true
                    | None => false
                    end), w).

(** [os.path.exists(f'output/{DATA_FILE_NAME}')] *)
Definition exists_data : M world bool :=
  fun w => (Normal (match resolve_data (fs w) with
                    | Normal _ => true
                    | Raise _ => false
                    end), w).

(** [os.mkdir("output")]: a new, empty directory. *)
Definition mkdir_output : M world unit :=
  fun w => match output (fs w) with
           | Some _ => (Raise (FileExistsError "output"), w)
           | None =>
               (Normal tt,
                set_fs (fun f => {| request_toml := request_toml f;
                                    output := Some Directory;
                                    pubmed_data_csv := None |}) w)
           end.

(** [with open(f'output/{DATA_FILE_NAME}', 'w') as _: pass]: creates the
    file, or truncates it. *)
Definition open_w_data : M world unit :=
  fun w => match output (fs w) with
           | None => (Raise (FileNotFoundError data_path), w)
           | Some RegularFile => (Raise (NotADirectoryError data_path), w)
           | Some Directory => (Normal tt, set_fs (write_data Blank) w)
           end.

(** [open('request.toml', 'r')], the handle standing for what can be read
    from it. *)
Definition open_r_request_toml : M world (gmap string scrape_params) :=
  fun w => match request_toml (fs w) with
           | None => (Raise (FileNotFoundError "request.toml"), w)
           | Some doc => (Normal doc, w)
           end.

(** [print(e)] *)
Definition print (e : exn) : M world unit :=
  fun w => (Normal tt,
            {| fs := fs w; stdout := stdout w ++ [e];
               sessions_created := sessions_created w;
               open_sessions := open_sessions w |}).

(** [sys.exit(n)] *)
Definition sys_exit {S A} (n : Z) : M S A := raise (SystemExit n).

(** [d[key]] on a dict *)
Definition getitem {S A} (d : gmap string A) (key : string) : M S A :=
  match d !! key with
  | Some a => mret a
  | None => raise (KeyError key)
  end.

(** *** [pandas]: [read_csv] and [to_csv] on the dataset file *)

(** [pd.read_csv(f'output/{DATA_FILE_NAME}')] *)
Definition read_csv : M world DataFrame :=
  fun w => match resolve_data (fs w) with
           | Raise e => (Raise e, w)
           | Normal Blank => (Raise EmptyDataError, w)
           | Normal Ragged => (Raise ParserError, w)
           | Normal (Rendered df) => (Normal df, w)
           end.

(** [df.to_csv(f'output/{DATA_FILE_NAME}', index=False)] *)
Definition to_csv (df : DataFrame) : M world unit :=
  fun w => match output (fs w) with
           | Some Directory => (Normal tt, set_fs (write_data (Rendered df)) w)
           | _ => (Raise (OSError "output"), w)
           end.

(** *** [requests_html]: sessions, responses, elements *)

(** The HTML engine: [e.find(selector)] gives the matching elements in
    document order, [e.text] the text of an element. *)
Class HtmlEngine := {
  Element : Type;
  find : pystr → Element → list Element;
  text : Element → pystr
}.

(** [requests.Response]: [status_code] is an [int]. *)
Record Response `{HtmlEngine} := { status_code : Z; html : Element }.

(** [session = HTMLSession()] *)
Definition HTMLSession : M world nat :=
  fun w => let session := sessions_created w in
           (Normal session,
            {| fs := fs w; stdout := stdout w;
               sessions_created := S session;
               open_sessions := {[session]} ∪ open_sessions w |}).

(** [session.close()] *)
Definition session_close (session : nat) : M world unit :=
  fun w => (Normal tt,
            {| fs := fs w; stdout := stdout w;
               sessions_created := sessions_created w;
               open_sessions := open_sessions w ∖ {[session]} |}).

(** Python values compared by [!=] in [html_session]. *)
Inductive pyval :=
| PyInt (n : Z)
| PyStr (s : pystr).

(** [a != b]: an [int] and a [str] are never equal. *)
Definition py_ne (a b : pyval) : bool :=
  match a, b with
  | PyInt m, PyInt n => negb (m =? n)%Z
  | PyStr s, PyStr t => negb (bool_decide (s = t))
  | _, _ => true
  end.

(** ** The script *)

(** The locals of [get_params] that its [finally] block reads. *)
Record get_params_locals := {
  l_f : option (gmap string scrape_params);
  l_params : option scrape_params
}.

Definition is_FileNotFoundError (e : exn) : bool :=
  match e with FileNotFoundError _ => true | _ => false end.

Definition is_HTTPError (e : exn) : bool :=
  match e with HTTPError => true | _ => false end.

Definition is_EmptyDataError (e : exn) : bool :=
  match e with EmptyDataError => true | _ => false end.

(** [def get_params() -> dict] *)
Definition get_params : M world params_dict :=
  call {| l_f := None; l_params := None |}
    (try_finally_return
       (try_except
          (f ← lift open_r_request_toml;
           assign (fun l => {| l_f := Some f; l_params := l_params l |}) ;;
           let _p := f in
           params ← getitem _p "scrape-params";
           assign (fun l => {| l_f := l_f l; l_params := Some params |}))
          is_FileNotFoundError
          (fun e => lift (print e) ;; sys_exit 3))
       (params ← local "params" l_params;
        let r_code := research_code params in
        let _url := url params in
        let request_urls := (fun code => _url ++ code) <$> r_code in
        let p := {| p_url := request_urls; p_selector := selector params |} in
        _ ← local "f" l_f;
        mret p)).

(** [def make_data_dir_if_not_exists() -> None] *)
Definition make_data_dir_if_not_exists : M world unit :=
  e ← exists_output;
  (if negb e then mkdir_output else mret tt) ;;
  e' ← exists_data;
  if negb e' then open_w_data else mret tt.

(** [def insert_data(data: dict) -> None] *)
Definition insert_data (data : page_data) : M world unit :=
  let new_data := from_dict data in
  pubmed_df ← try_except read_csv is_EmptyDataError
                (fun _ => mret DataFrame_empty);
  let pubmed_df0 := concat pubmed_df new_data in
  to_csv pubmed_df0.

Section Script.

Context `{engine : HtmlEngine}.

(** What [session.get(request_url)] does: a response, or an exception of
    the transport. *)
Variable transport : pystr → outcome Response.

Definition session_get (session : nat) (request_url : pystr) : M world Response :=
  fun w => (transport request_url, w).

(** [@contextmanager def html_session(request_url)], together with the
    [with] block it manages: the generator yields once, so [body] runs at
    the [yield], an exception of [body] is raised there, and
    the rest of the generator runs when [body] is left. *)
Definition html_session {A} (request_url : pystr) (body : Response → M world A)
    : M world A :=
  session ← HTMLSession;
  try_finally
    (try_except
       (response ← session_get session request_url;
        if py_ne (PyInt (status_code response)) (PyStr (str "404"))
        then body response
        else raise HTTPError)
       is_HTTPError
       (fun e => print e ;; sys_exit 3))
    (session_close session).

(** The label loop: [_b = ''; for bold_text in p.find("strong"): _b = bold_text.text] *)
Definition label_of (p : Element) : pystr :=
  fold_left (fun _b bold_text => text bold_text) (find (str "strong") p) [].

(** The body of the loop over [abstract_content]. *)
Definition entry_of (p : Element) : PubEntry :=
  let _b := label_of p in
  let content := strip (replace (text p) _b []) in
  {| bold_text := _b; content_text := content |}.

(** [async def parse_pub_entry_data(response, selector) -> list[PubEntry]] *)
Definition parse_pub_entry_data (response : Response) (selector : pystr)
    : list PubEntry :=
  let abstract_content := find selector (html response) in
  fold_left (fun pub_entries p => pub_entries ++ [entry_of p])
    abstract_content [].

(** The dict [data] that [main] builds from the entries of one page. *)
Definition page_dict (_url_code_requests : pystr) (pub_entry : list PubEntry)
    : page_data :=
  {| d_url := _url_code_requests;
     d_text := imap (fun index entries =>
                       {| section_index := index; section_entry := entries |})
                 pub_entry |}.

(** [async def main()] *)
Definition main : M world unit :=
  make_data_dir_if_not_exists ;;
  p ← get_params;
  for_each (p_url p) (fun _url_code_requests =>
    html_session _url_code_requests (fun session_response =>
      let pub_entry := parse_pub_entry_data session_response (p_selector p) in
      let data := page_dict _url_code_requests pub_entry in
      insert_data data)).

End Script.

(** ** What the specification says, in its own words *)

(** "Remove the first occurrence of [label]": [s.replace(label, "", 1)]. *)
Definition remove_first (s label : pystr) : pystr :=
  match str_find s label with
  | Some n => take n s ++ drop (n + length label) s
  | None => s
  end.

Definition starts_with_space (s : pystr) : bool :=
  match s with
  | c :: _ => isspace c
  | [] => false
  end.

Definition ends_with_space (s : pystr) : bool := starts_with_space (rev s).

(** [old] occurs in [s] at offset [n]. *)
Definition occurs_at (s old : pystr) (n : nat) : bool := startswith (drop n s) old.

Section SpecWords.

Context `{engine : HtmlEngine}.

(** "Find the first emphasized/bold-styled inline child; its trimmed text
    becomes label (empty string if none exists)." *)
Definition spec_label (p : Element) : pystr :=
  match find (str "strong") p with
  | first :: _ => strip (text first)
  | [] => []
  end.

(** "Take the element's full trimmed text, remove the first occurrence of
    label from it, trim again." *)
Definition spec_body (p : Element) (label : pystr) : pystr :=
  strip (remove_first (strip (text p)) label).

End SpecWords.

(** The number of rows a reader of the dataset file finds. *)
Definition row_count (w : world) : nat :=
  match resolve_data (fs w) with
  | Normal (Rendered df) => length (rows df)
  | _ => 0
  end.

(** ** A small document model, to run the script on concrete pages

    Elements carry a tag name and their children; [text] is the text of the
    descendants in document order, trimmed, and selectors are tag names,
    matched against the element and its descendants in document order. *)

#[warnings="-register-all"]
Inductive dom :=
| Txt (s : pystr)
| Tag (name : pystr) (children : list dom).

Fixpoint inner_text (d : dom) : pystr :=
  match d with
  | Txt s => s
  | Tag _ children => flat_map inner_text children
  end.

Fixpoint select (sel : pystr) (d : dom) : list dom :=
  match d with
  | Txt _ => []
  | Tag name children =>
      (if bool_decide (name = sel) then [d] else [])
      ++ flat_map (select sel) children
  end.

Definition dom_engine : HtmlEngine :=
  {| Element := dom; find := select; text := fun d => strip (inner_text d) |}.

Definition strong (s : string) : dom := Tag (str "strong") [Txt (str s)].
Definition para (children : list dom) : dom := Tag (str "p") children.
Definition page (children : list dom) : dom := Tag (str "html") children.

(** [<p><strong>Conclusion:</strong> All related content.</p>] *)
Definition p_conclusion : dom :=
  para [strong "Conclusion:"; Txt (str " All related content.")].

(** [<p><strong>Background:</strong> x <strong>Methods:</strong> y</p>] *)
Definition p_two_labels : dom :=
  para [strong "Background:"; Txt (str " x "); strong "Methods:"; Txt (str " y")].

(** [<p><strong>A:</strong> x A: y</p>] *)
Definition p_repeated : dom :=
  para [strong "A:"; Txt (str " x A: y")].

(** [<p><strong>ab</strong>aabb</p>] *)
Definition p_rejoined : dom :=
  para [strong "ab"; Txt (str "aabb")].



Definition response_of (status : Z) (d : dom) : @Response dom_engine :=
  @Build_Response dom_engine status d.

(** The configuration of the specification's scenario. *)
Definition example_params : scrape_params :=
  {| research_code := [str "100"; str "101"];
     url := str "https://example.org/";
     selector := str "p" |}.

Definition example_toml : gmap string scrape_params :=
  {["scrape-params"%string := example_params]}.

Definition world_of (f : filesystem) : world :=
  {| fs := f; stdout := []; sessions_created := 0; open_sessions := ∅ |}.

(** First run: a configuration and nothing else. *)
Definition fs_first_run : filesystem :=
  {| request_toml := Some example_toml; output := None; pubmed_data_csv := None |}.

(** No configuration file. *)
Definition fs_no_config : filesystem :=
  {| request_toml := None; output := None; pubmed_data_csv := None |}.

Definition fs_with (t : csv_text) : filesystem :=
  {| request_toml := Some example_toml; output := Some Directory;
     pubmed_data_csv := Some t |}.

Definition conclusion_entry : PubEntry :=
  {| bold_text := str "Conclusion:"; content_text := str "All related content." |}.

(** A dataset of one earlier row. *)
Definition df_one_row : DataFrame :=
  from_dict {| d_url := str "https://example.org/99";
               d_text := [ {| section_index := 0; section_entry := conclusion_entry |} ] |}.

(** Every page is the one-paragraph abstract. *)
Definition transport_ok (request_url : pystr) : outcome (@Response dom_engine) :=
  Normal (response_of 200 (page [p_conclusion])).

(** Every page is not found. *)
Definition transport_404 (request_url : pystr) : outcome (@Response dom_engine) :=
  Normal (response_of 404 (page [Txt (str "Not Found")])).


(** The connection fails. *)
Definition transport_down (request_url : pystr) : outcome (@Response dom_engine) :=
  Raise ConnectionError.

(** ** Further worlds and transports for the runs below *)

(** The dataset file is there and [pd.read_csv] either reads it or finds it
    empty. *)
Definition readable (f : filesystem) : bool :=
  match resolve_data f with
  | Normal Blank | Normal (Rendered _) => true
  | _ => false
  end.

(** The number of elements the selector matches on each page, summed. *)
Definition matches `{engine : HtmlEngine} (sel : pystr) (pages : list Response) : nat :=
  sum_list ((fun response => length (find sel (html response))) <$> pages).

(** [output] is there, but as a regular file. *)
Definition fs_output_is_file : filesystem :=
  {| request_toml := Some example_toml; output := Some RegularFile;
     pubmed_data_csv := None |}.

(** [request.toml] is there, without the table ['scrape-params']. *)
Definition fs_no_table : filesystem :=
  {| request_toml := Some ∅; output := None; pubmed_data_csv := None |}.

(** The first code is served, at the second the connection fails. *)
Definition transport_second_fails (request_url : pystr) : outcome (@Response dom_engine) :=
  if bool_decide (request_url = str "https://example.org/101")
  then Raise ConnectionError
  else Normal (response_of 200 (page [p_conclusion])).

(** * Properties *)

(** ** Python strings *)

Example strip_ex : strip (str "  a b  ") = str "a b".
Proof. reflexivity. Qed.

Example replace_ex1 : replace (str "A x A y") (str "A") (str "") = str " x  y".
Proof. reflexivity. Qed.

Example replace_ex2 : replace (str "abc") (str "") (str "-") = str "-a-b-c-".
Proof. reflexivity. Qed.

Example replace_ex3 : replace (str "aaa") (str "aa") (str "b") = str "ba".
Proof. reflexivity. Qed.

Example replace_ex4 : replace (str "abaabb") (str "ab") (str "") = str "ab".
Proof. reflexivity. Qed.

Lemma lstrip_suffix (s : pystr) : ∃ pre, s = pre ++ lstrip s.
Proof.
  induction s as [|c s [pre IH]]; simpl.
  - by exists [].
  - destruct (isspace c).
    + exists (c :: pre). simpl. by f_equal.
    + by exists [].
Qed.

Lemma lstrip_starts (s : pystr) : starts_with_space (lstrip s) = false.
Proof.
  induction s as [|c s IH]; simpl; [done|].
  destruct (isspace c) eqn:E; [done|]. simpl. done.
Qed.

Lemma rstrip_prefix (s : pystr) : ∃ suf, s = rstrip s ++ suf.
Proof.
  unfold rstrip. destruct (lstrip_suffix (rev s)) as [pre E].
  exists (rev pre). rewrite <- rev_app_distr, <- E. by rewrite rev_involutive.
Qed.

Lemma rstrip_ends (s : pystr) : ends_with_space (rstrip s) = false.
Proof.
  unfold ends_with_space, rstrip. rewrite rev_involutive. apply lstrip_starts.
Qed.

Lemma strip_starts (s : pystr) : starts_with_space (strip s) = false.
Proof.
  unfold strip. pose proof (lstrip_starts s) as H.
  destruct (rstrip_prefix (lstrip s)) as [suf E].
  destruct (rstrip (lstrip s)) as [|c r]; [done|].
  rewrite E in H. exact H.
Qed.

Lemma strip_ends (s : pystr) : ends_with_space (strip s) = false.
Proof. apply rstrip_ends. Qed.

Lemma replace_empty (s : pystr) : replace s [] [] = s.
Proof.
  unfold replace. simpl. induction s as [|c s IH]; simpl; [done|]. by f_equal.
Qed.

Lemma replace_scan_skip (k : nat) (old new s : pystr) :
  replace_scan k old new s = replace_scan 0 old new (drop k s).
Proof.
  revert k. induction s as [|c s IH]; intros [|k]; simpl; done.
Qed.

Lemma replace_unfold (o : codepoint) (old new s : pystr) :
  replace s (o :: old) new =
  match s with
  | [] => []
  | c :: s' =>
      if startswith s (o :: old)
      then new ++ replace (drop (length (o :: old)) s) (o :: old) new
      else c :: replace s' (o :: old) new
  end.
Proof.
  unfold replace. destruct s as [|c s']; [done|].
  cbn [replace_scan]. destruct (startswith (c :: s') (o :: old)); [|done].
  f_equal. rewrite replace_scan_skip. simpl. by rewrite Nat.sub_0_r.
Qed.

(** An occurrence found at [n]: the text before it is kept, the occurrence
    is replaced, and the scan goes on behind it. *)
Lemma replace_found (s old new : pystr) (n : nat) :
  old ≠ [] →
  str_find s old = Some n →
  replace s old new
  = take n s ++ new ++ replace (drop (n + length old) s) old new.
Proof.
  destruct old as [|o old]; [done|]. intros _.
  revert n. induction s as [|c s IH]; intros n Hf.
  - simpl in Hf. done.
  - rewrite replace_unfold. cbn [str_find] in Hf.
    destruct (startswith (c :: s) (o :: old)) eqn:E.
    + by simplify_eq.
    + destruct (str_find s (o :: old)) as [m|] eqn:F; simplify_eq/=.
      f_equal. by apply IH.
Qed.

(** No occurrence: nothing changes. *)
Lemma replace_absent (s old new : pystr) :
  old ≠ [] → str_find s old = None → replace s old new = s.
Proof.
  destruct old as [|o old]; [done|]. intros _.
  induction s as [|c s IH]; intros Hf.
  - done.
  - rewrite replace_unfold. cbn [str_find] in Hf.
    destruct (startswith (c :: s) (o :: old)) eqn:E; [done|].
    destruct (str_find s (o :: old)) eqn:F; simplify_eq/=.
    f_equal. by apply IH.
Qed.

(** ** The effect monad *)

Lemma bind_normal {S A B} (m : M S A) (k : A → M S B) (s s' : S) (a : A) :
  m s = (Normal a, s') → (m ≫= k) s = k a s'.
Proof. intros E. unfold mbind, M_bind. by rewrite E. Qed.

Lemma bind_raise {S A B} (m : M S A) (k : A → M S B) (s s' : S) (e : exn) :
  m s = (Raise e, s') → (m ≫= k) s = (Raise e, s').
Proof. intros E. unfold mbind, M_bind. by rewrite E. Qed.

(** ** Loops of the extractor *)

Lemma fold_left_overwrite {A B} (f : A → B) (l : list A) (b : B) :
  fold_left (fun _ x => f x) l b = default b (last (f <$> l)).
Proof.
  revert b. induction l as [|x l IH]; intros b; [done|].
  cbn [fold_left fmap list_fmap]. destruct l as [|y l]; [done|].
  rewrite IH. change (last (f x :: (f <$> y :: l))) with (last (f <$> y :: l)).
  by rewrite <- !IH.
Qed.

Lemma fold_left_append {A B} (f : A → B) (l : list A) (acc : list B) :
  fold_left (fun acc x => acc ++ [f x]) l acc = acc ++ (f <$> l).
Proof.
  revert acc. induction l as [|x l IH]; intros acc; simpl.
  - by rewrite app_nil_r.
  - rewrite IH. by rewrite <- app_assoc.
Qed.

Section Extractor.

Context `{engine : HtmlEngine}.

Lemma parse_pub_entry_data_map (response : Response) (selector : pystr) :
  parse_pub_entry_data response selector = entry_of <$> find selector (html response).
Proof. unfold parse_pub_entry_data. by rewrite fold_left_append. Qed.

Lemma label_of_last (p : Element) :
  label_of p = default [] (last (text <$> find (str "strong") p)).
Proof. unfold label_of. apply fold_left_overwrite. Qed.

(** With a single [strong] element the last one is the first one. *)
Lemma label_of_single (p b : Element) :
  find (str "strong") p = [b] → bold_text (entry_of p) = text b.
Proof. intros E. simpl. by rewrite label_of_last, E. Qed.

(** C1 (as the code has it). The result has one entry per matched element, in document
    order, and the label of an entry is the text of the LAST [strong]
    element found in it (the loop overwrites [_b] at every one), the empty
    string when there is none. *)
Theorem label_is_last_strong (response : Response) (selector : pystr) :
  parse_pub_entry_data response selector
  = entry_of <$> find selector (html response)
  ∧ ∀ p : Element,
      bold_text (entry_of p)
      = default [] (last (text <$> find (str "strong") p)).
Proof.
  split; [apply parse_pub_entry_data_map|]. intros p. apply label_of_last.
Qed.

(** C3 (as the code has it). The body is the text of the element with EVERY
    non-overlapping occurrence of the label removed, scanning from the left,
    and then trimmed: it neither starts nor ends with whitespace; for a
    non-empty label found at offset [n] the text before [n] is kept, the
    occurrence is dropped and the removal goes on in the rest. *)
Theorem body_is_text_without_label (p : Element) :
  let label := bold_text (entry_of p) in
  let body := content_text (entry_of p) in
  body = strip (replace (text p) label [])
  ∧ starts_with_space body = false
  ∧ ends_with_space body = false
  ∧ replace (text p) label []
    = match label, str_find (text p) label with
      | _ :: _, Some n =>
          take n (text p)
          ++ replace (drop (n + length label) (text p)) label []
      | _, _ => text p
      end.
Proof.
  simpl. repeat split.
  - apply strip_starts.
  - apply strip_ends.
  - destruct (label_of p) as [|c l] eqn:E; [apply replace_empty|].
    destruct (str_find (text p) (c :: l)) as [n|] eqn:F.
    + by rewrite (replace_found _ _ _ n).
    + by apply replace_absent.
Qed.

(** X13. Where the label does not occur again behind its first occurrence,
    the body is the text with that one occurrence removed, trimmed. *)
Lemma body_single_occurrence (p : Element) (n : nat) :
  let label := bold_text (entry_of p) in
  label ≠ [] →
  str_find (text p) label = Some n →
  str_find (drop (n + length label) (text p)) label = None →
  content_text (entry_of p) = strip (remove_first (text p) label).
Proof.
  simpl. intros Hl Hn Hrest. unfold remove_first. rewrite Hn.
  rewrite (replace_found _ _ _ n) by done. simpl.
  by rewrite replace_absent.
Qed.


End Extractor.

(** C1, as stated, fails on
    [<p><strong>Background:</strong> x <strong>Methods:</strong> y</p>]:
    the first [strong] reads "Background:", the label is "Methods:". *)
Lemma label_is_not_first_strong :
  @spec_label dom_engine p_two_labels = str "Background:"
  ∧ bold_text (@entry_of dom_engine p_two_labels) = str "Methods:"
  ∧ bold_text (@entry_of dom_engine p_two_labels)
    ≠ @spec_label dom_engine p_two_labels.
Proof. repeat split. intros E. vm_compute in E. discriminate E. Qed.

(** C3, as stated, fails twice. On [<p><strong>A:</strong> x A: y</p>] the
    second "A:" goes as well. On [<p><strong>ab</strong>aabb</p>] the label
    first occurs at offset 0 of the text and, after the removals, again at
    offset 0 of the body. *)
Lemma body_is_not_first_removal :
  (content_text (@entry_of dom_engine p_repeated) = str "x  y"
   ∧ @spec_body dom_engine p_repeated (bold_text (@entry_of dom_engine p_repeated))
     = str "x A: y"
   ∧ content_text (@entry_of dom_engine p_repeated)
     ≠ @spec_body dom_engine p_repeated (bold_text (@entry_of dom_engine p_repeated)))
  ∧ (bold_text (@entry_of dom_engine p_rejoined) = str "ab"
     ∧ str_find (@text dom_engine p_rejoined) (str "ab") = Some 0
     ∧ content_text (@entry_of dom_engine p_rejoined) = str "ab"
     ∧ occurs_at (content_text (@entry_of dom_engine p_rejoined)) (str "ab") 0 = true).
Proof.
  repeat split. intros E. vm_compute in E. discriminate E.
Qed.


(** ** The dataset file *)

Lemma resolve_data_normal (f : filesystem) (t : csv_text) :
  resolve_data f = Normal t →
  output f = Some Directory ∧ pubmed_data_csv f = Some t.
Proof.
  unfold resolve_data. destruct (output f) as [[]|]; try done.
  destruct (pubmed_data_csv f); naive_solver.
Qed.

Lemma resolve_data_written (w : world) (t : csv_text) :
  output (fs w) = Some Directory →
  resolve_data (fs (set_fs (write_data t) w)) = Normal t.
Proof. intros E. unfold resolve_data. simpl. by rewrite E. Qed.

Lemma read_csv_rendered (w : world) (df : DataFrame) :
  resolve_data (fs w) = Normal (Rendered df) → read_csv w = (Normal df, w).
Proof. intros E. unfold read_csv. by rewrite E. Qed.

Lemma concat_empty_l (df : DataFrame) : concat DataFrame_empty df = df.
Proof.
  destruct df as [cols rs]. unfold concat. simpl. f_equal.
  induction cols as [|c cols IH]; [done|].
  rewrite filter_cons_True; [by f_equal | apply not_elem_of_nil].
Qed.

(** A write over a readable dataset: the frame read, then the new frame. *)
Lemma insert_data_rendered (data : page_data) (w : world) (df : DataFrame) :
  resolve_data (fs w) = Normal (Rendered df) →
  insert_data data w
  = (Normal tt, set_fs (write_data (Rendered (concat df (from_dict data)))) w).
Proof.
  intros E. destruct (resolve_data_normal _ _ E) as [Ho _].
  unfold insert_data, mbind, M_bind, try_except.
  rewrite (read_csv_rendered _ _ E). unfold to_csv. by rewrite Ho.
Qed.

(** A write over a file without bytes: [EmptyDataError] is caught. *)
Lemma insert_data_blank (data : page_data) (w : world) :
  resolve_data (fs w) = Normal Blank →
  insert_data data w
  = (Normal tt, set_fs (write_data (Rendered (from_dict data))) w).
Proof.
  intros E. destruct (resolve_data_normal _ _ E) as [Ho _].
  unfold insert_data, mbind, M_bind, try_except, read_csv. rewrite E.
  cbn [is_EmptyDataError mret M_ret]. rewrite concat_empty_l.
  unfold to_csv. by rewrite Ho.
Qed.



Lemma make_data_dir_fresh (w : world) :
  output (fs w) = None →
  make_data_dir_if_not_exists w
  = (Normal tt,
     set_fs (fun f => {| request_toml := request_toml f;
                         output := Some Directory;
                         pubmed_data_csv := Some Blank |}) w).
Proof.
  destruct w as [[doc o d] out n opened]. simpl. by intros ->.
Qed.


Lemma from_dict_rows (data : page_data) :
  length (rows (from_dict data)) = length (d_text data).
Proof. unfold from_dict. simpl. by rewrite length_fmap. Qed.

Section Store.

Context `{engine : HtmlEngine}.

Lemma page_dict_sections (u : pystr) (response : Response) (sel : pystr) :
  length (d_text (page_dict u (parse_pub_entry_data response sel)))
  = length (find sel (html response)).
Proof.
  unfold page_dict. simpl.
  by rewrite length_imap, parse_pub_entry_data_map, length_fmap.
Qed.


End Store.


(** C7 (as the code has it). Over a dataset file without bytes, the Store Writer
    catches [EmptyDataError], takes zero rows for the existing ones, and
    writes exactly the rows of the new frame. *)
Theorem empty_dataset_is_zero_rows (data : page_data) (w : world) :
  resolve_data (fs w) = Normal Blank →
  insert_data data w
  = (Normal tt, set_fs (write_data (Rendered (from_dict data))) w)
  ∧ row_count (snd (insert_data data w)) = length (d_text data).
Proof.
  intros E. destruct (resolve_data_normal _ _ E) as [Ho _].
  rewrite insert_data_blank by done. split; [done|]. cbn [snd].
  unfold row_count. rewrite resolve_data_written by done. apply from_dict_rows.
Qed.

(** First use: initialization, then a write. *)
Lemma bootstrap_first_write (data : page_data) (w : world) :
  output (fs w) = None →
  ∃ w', (make_data_dir_if_not_exists ;; insert_data data) w = (Normal tt, w')
      ∧ resolve_data (fs w') = Normal (Rendered (from_dict data)).
Proof.
  intros Ho. eexists. split.
  - erewrite bind_normal by (by apply make_data_dir_fresh).
    by apply insert_data_blank.
  - done.
Qed.

(** ** The configuration *)

Lemma get_params_present (w : world) (doc : gmap string scrape_params)
    (ps : scrape_params) :
  request_toml (fs w) = Some doc →
  doc !! "scrape-params"%string = Some ps →
  get_params w
  = (Normal {| p_url := (fun code => url ps ++ code) <$> research_code ps;
               p_selector := selector ps |}, w).
Proof.
  destruct w as [[rt o d] out n opened]. simpl. intros -> Hl.
  unfold get_params, call, try_finally_return, try_except, lift, getitem,
    open_r_request_toml, mbind, M_bind.
  simpl. rewrite Hl. done.
Qed.

(** Without [request.toml]: the error is printed, [sys.exit(3)] raises
    [SystemExit], and the [finally] block, reading [params] that was never
    bound, raises in its place. *)
Lemma get_params_absent (w : world) :
  request_toml (fs w) = None →
  get_params w = (Raise (UnboundLocalError "params"),
                  snd (print (FileNotFoundError "request.toml") w)).
Proof.
  destruct w as [[rt o d] out n opened]. simpl. by intros ->.
Qed.

(** C8. With url template [u] and codes [c1 .. cn] in the table
    [scrape-params], [get_params] returns the list [u ++ c1 .. u ++ cn] in
    the order of the codes and leaves the world as it was; the list depends
    on the table alone. *)
Theorem request_urls_are_concatenations
    (w : world) (doc : gmap string scrape_params) (ps : scrape_params) :
  request_toml (fs w) = Some doc →
  doc !! "scrape-params"%string = Some ps →
  ∃ p, get_params w = (Normal p, w)
     ∧ p_url p = (fun code => url ps ++ code) <$> research_code ps
     ∧ length (p_url p) = length (research_code ps)
     ∧ (∀ (i : nat) (code : pystr), research_code ps !! i = Some code →
                  p_url p !! i = Some (url ps ++ code))
     ∧ p_selector p = selector ps
     ∧ ∀ w2, request_toml (fs w2) = Some doc →
             fst (get_params w2) = Normal p.
Proof.
  intros Hf Hl. eexists. split; [by apply (get_params_present w doc ps)|].
  cbn [p_url p_selector]. repeat split.
  - by rewrite length_fmap.
  - intros i code Hi. rewrite list_lookup_fmap. unfold pystr in *. by rewrite Hi.
  - intros w2 Hf2. by rewrite (get_params_present w2 doc ps).
Qed.

(** ** The fetcher *)

Lemma closed_is_not_open (session : nat) (opened : gset nat) :
  session ∉ opened ∖ {[session]}.
Proof. intros [_ H]%elem_of_difference. by apply H, elem_of_singleton. Qed.

Section Fetcher.

Context `{engine : HtmlEngine}.
Variable transport : pystr → outcome Response.

(** The comparison of an [int] with the string ['404'] never fails. *)
Lemma status_check_always_passes (response : Response) :
  py_ne (PyInt (status_code response)) (PyStr (str "404")) = true.
Proof. done. Qed.

(** C9. Whatever the transport answers and whatever the block under [with]
    does with the response (complete, raise [HTTPError], raise anything
    else), the session that [html_session] opened is not open afterwards. *)
Theorem session_closed_on_every_exit
    {A} (request_url : pystr) (body : Response → M world A) (w : world) :
  let session := sessions_created w in
  fst (HTMLSession w) = Normal session
  ∧ session ∈ open_sessions (snd (HTMLSession w))
  ∧ session ∉ open_sessions (snd (html_session transport request_url body w)).
Proof.
  cbv zeta. split; [done|]. split.
  { cbn [HTMLSession snd open_sessions].
    apply elem_of_union_l, elem_of_singleton. done. }
  unfold html_session, try_finally, try_except, session_get, HTMLSession,
    session_close, mbind, M_bind.
  cbv beta iota. destruct (transport request_url) as [response|e].
  - rewrite status_check_always_passes.
    destruct (body response _) as [[a|e] w'] eqn:Eb.
    + apply closed_is_not_open.
    + destruct (is_HTTPError e); apply closed_is_not_open.
  - destruct (is_HTTPError e); apply closed_is_not_open.
Qed.

(** The exit paths one by one. The block completes: *)
Lemma html_session_normal {A} (request_url : pystr) (body : Response → M world A)
    (w w' : world) (response : Response) (a : A) :
  transport request_url = Normal response →
  body response (snd (HTMLSession w)) = (Normal a, w') →
  html_session transport request_url body w
  = (Normal a, snd (session_close (sessions_created w) w')).
Proof.
  intros Et Eb.
  unfold html_session, try_finally, try_except, session_get, mbind, M_bind.
  cbv beta iota. cbn [HTMLSession]. rewrite Et, status_check_always_passes.
  cbn [HTMLSession snd] in Eb. by rewrite Eb.
Qed.

(** [HTTPError] (from the transport or from the block) is printed and turned
    into [SystemExit(3)]: *)
Lemma html_session_http_error {A} (request_url : pystr)
    (body : Response → M world A) (w : world) :
  transport request_url = Raise HTTPError →
  html_session transport request_url body w
  = (Raise (SystemExit 3),
     snd (session_close (sessions_created w)
            (snd (print HTTPError (snd (HTMLSession w)))))).
Proof.
  intros Et.
  unfold html_session, try_finally, try_except, session_get, mbind, M_bind.
  cbv beta iota. cbn [HTMLSession]. by rewrite Et.
Qed.

(** Any other exception passes through: *)
Lemma html_session_other_error {A} (request_url : pystr)
    (body : Response → M world A) (w : world) (e : exn) :
  transport request_url = Raise e →
  is_HTTPError e = false →
  html_session transport request_url body w
  = (Raise e, snd (session_close (sessions_created w) (snd (HTMLSession w)))).
Proof.
  intros Et He.
  unfold html_session, try_finally, try_except, session_get, mbind, M_bind.
  cbv beta iota. cbn [HTMLSession]. by rewrite Et, He.
Qed.

End Fetcher.

(** ** Sessions over a whole run *)

Lemma opened_then_closed (session : nat) (opened : gset nat) :
  ({[session]} ∪ opened) ∖ {[session]} = opened ∖ {[session]}.
Proof.
  rewrite difference_union_distr_l_L, difference_diag_L. apply union_empty_l_L.
Qed.

Lemma insert_data_sessions (data : page_data) (w : world) :
  open_sessions (snd (insert_data data w)) = open_sessions w.
Proof.
  destruct w as [[doc o d] out n opened].
  destruct o as [[]|], d as [[]|]; reflexivity.
Qed.

Lemma make_data_dir_sessions (w : world) :
  open_sessions (snd (make_data_dir_if_not_exists w)) = open_sessions w.
Proof.
  destruct w as [[doc o d] out n opened].
  destruct o as [[]|], d as [[]|]; reflexivity.
Qed.

Lemma get_params_sessions (w : world) :
  open_sessions (snd (get_params w)) = open_sessions w.
Proof.
  destruct (request_toml (fs w)) as [doc|] eqn:Ef.
  - destruct w as [[rt o d] out n opened]. simpl in Ef. subst rt.
    unfold get_params, call, try_finally_return, try_except, lift, getitem,
      open_r_request_toml, mbind, M_bind.
    simpl. by destruct (doc !! "scrape-params"%string).
  - by rewrite get_params_absent.
Qed.

Section Run.

Context `{engine : HtmlEngine}.
Variable transport : pystr → outcome Response.

(** Around a block that leaves the sessions alone, [html_session] leaves
    open exactly what was open before, its own session excepted. *)
Lemma html_session_sessions {A} (request_url : pystr)
    (body : Response → M world A) (w : world) :
  (∀ response w1, open_sessions (snd (body response w1)) = open_sessions w1) →
  open_sessions (snd (html_session transport request_url body w))
  = open_sessions w ∖ {[sessions_created w]}.
Proof.
  intros Hbody.
  unfold html_session, try_finally, try_except, session_get, HTMLSession,
    session_close, mbind, M_bind.
  cbv beta iota. destruct (transport request_url) as [response|e].
  - rewrite status_check_always_passes.
    match goal with |- context [body response ?w1] =>
      specialize (Hbody response w1); destruct (body response w1) as [[a|e] w']
    end; cbn [snd] in Hbody.
    + cbn [snd open_sessions]. rewrite Hbody. apply opened_then_closed.
    + destruct (is_HTTPError e); cbn [snd open_sessions print sys_exit raise];
        rewrite Hbody; apply opened_then_closed.
  - destruct (is_HTTPError e); apply opened_then_closed.
Qed.

Lemma for_each_sessions {A} (xs : list A) (body : A → M world unit) (w : world) :
  (∀ x w1, open_sessions (snd (body x w1)) ⊆ open_sessions w1) →
  open_sessions (snd (for_each xs body w)) ⊆ open_sessions w.
Proof.
  intros Hbody. revert w. induction xs as [|x xs IH]; intros w; [done|].
  cbn [for_each]. unfold mbind, M_bind.
  specialize (Hbody x w). destruct (body x w) as [[[]|e] w1]; cbn [snd] in *.
  - etrans; [apply IH | done].
  - done.
Qed.

(** X20. However the run ends, it leaves no session open that was not open
    before it. *)
Lemma main_leaves_no_session_open (w : world) :
  open_sessions (snd (main transport w)) ⊆ open_sessions w.
Proof.
  unfold main, mbind, M_bind.
  pose proof (make_data_dir_sessions w) as H1.
  destruct (make_data_dir_if_not_exists w) as [[[]|e] w1]; cbn [snd] in *;
    [|by rewrite H1].
  pose proof (get_params_sessions w1) as H2.
  destruct (get_params w1) as [[p|e] w2]; cbn [snd] in *;
    [|by rewrite H2, H1].
  rewrite <- H1, <- H2. apply for_each_sessions. intros u w3.
  rewrite html_session_sessions.
  - apply subseteq_difference_l. done.
  - intros response w4. apply insert_data_sessions.
Qed.

End Run.

(** ** Runs of the script on concrete worlds *)

(** C4, at the failing input: every page answers 404. The responses are
    handed to the block under [with] all the same: nothing is printed, no
    [SystemExit] is raised, both codes are fetched and the run ends with
    status 0. *)
Theorem not_found_response_is_yielded :
  fst (@html_session dom_engine transport_404 Z (str "https://example.org/100")
         (fun response => mret (status_code response))
         (world_of (fs_with Blank)))
  = Normal 404%Z
  ∧ let run := @main dom_engine transport_404 (world_of fs_first_run) in
    fst run = Normal tt
    ∧ exit_status (fst run) = 0%Z
    ∧ stdout (snd run) = []
    ∧ sessions_created (snd run) = 2.
Proof. vm_compute. repeat split. Qed.

(** C5, at the failing input: no [request.toml]. The error is printed and
    nothing is fetched, but the run ends with [UnboundLocalError] from the
    [finally] block of [get_params], hence with status 1 and not 3. *)
Theorem missing_config_exit_status :
  let run := @main dom_engine transport_ok (world_of fs_no_config) in
  fst run = Raise (UnboundLocalError "params")
  ∧ exit_status (fst run) = 1%Z
  ∧ stdout (snd run) = [FileNotFoundError "request.toml"]
  ∧ sessions_created (snd run) = 0.
Proof. vm_compute. repeat split. Qed.


(** C7, as stated, fails on a dataset file that is not tabular data: the
    [ParserError] of [read_csv] leaves [insert_data] uncaught and the file is
    not rewritten. *)
Lemma unreadable_dataset_is_not_recovered :
  let w := world_of (fs_with Ragged) in
  let data := page_dict (str "https://example.org/100") [conclusion_entry] in
  fst (insert_data data w) = Raise ParserError
  ∧ fst (insert_data data w) ≠ Normal tt
  ∧ snd (insert_data data w) = w.
Proof. repeat split. intros E. vm_compute in E. discriminate E. Qed.

(** The scenario of the specification: two codes, each page one paragraph
    with the label "Conclusion:". *)
Example scenario_two_codes :
  let run := @main dom_engine transport_ok (world_of fs_first_run) in
  fst run = Normal tt
  ∧ resolve_data (fs (snd run))
    = Normal (Rendered
        {| columns := ["url"; "text"]%string;
           rows := [ <["url"%string := CStr (str "https://example.org/100")]>
                       (<["text"%string := CSection {| section_index := 0; section_entry := conclusion_entry |}]> ∅);
                     <["url"%string := CStr (str "https://example.org/101")]>
                       (<["text"%string := CSection {| section_index := 0; section_entry := conclusion_entry |}]> ∅) ] |})
  ∧ open_sessions (snd run) = ∅.
Proof. vm_compute. repeat split. Qed.

(** ** The theorems at work on the example worlds *)



Lemma empty_dataset_is_zero_rows_witness :
  let w := snd (make_data_dir_if_not_exists (world_of fs_first_run)) in
  let data := page_dict (str "https://example.org/100") [conclusion_entry] in
  resolve_data (fs w) = Normal Blank
  ∧ row_count (snd (insert_data data w)) = 1.
Proof.
  split; [reflexivity|].
  apply (empty_dataset_is_zero_rows
           (page_dict (str "https://example.org/100") [conclusion_entry])
           (snd (make_data_dir_if_not_exists (world_of fs_first_run)))).
  reflexivity.
Defined.

Lemma request_urls_are_concatenations_witness :
  request_toml (fs (world_of fs_first_run)) = Some example_toml
  ∧ example_toml !! "scrape-params"%string = Some example_params
  ∧ ∃ p, get_params (world_of fs_first_run) = (Normal p, world_of fs_first_run)
       ∧ p_url p = [str "https://example.org/100"; str "https://example.org/101"].
Proof.
  split; [reflexivity|]. split; [reflexivity|].
  destruct (request_urls_are_concatenations (world_of fs_first_run)
              example_toml example_params eq_refl eq_refl)
    as (p & Hrun & Hurl & _).
  exists p. split; [exact Hrun | exact Hurl].
Defined.

Lemma session_closed_on_every_exit_witness :
  0 ∉ open_sessions
        (snd (@html_session dom_engine transport_down unit
                (str "https://example.org/100") (fun _ => mret tt)
                (world_of fs_first_run))).
Proof.
  apply (@session_closed_on_every_exit dom_engine transport_down unit
           (str "https://example.org/100") (fun _ => mret tt)
           (world_of fs_first_run)).
Defined.

(** ** More on the configuration *)

Lemma get_params_no_table (w : world) (doc : gmap string scrape_params) :
  request_toml (fs w) = Some doc →
  doc !! "scrape-params"%string = None →
  get_params w = (Raise (UnboundLocalError "params"), w).
Proof.
  destruct w as [[rt o d] out n opened]. simpl. intros -> Hl.
  unfold get_params, call, try_finally_return, try_except, lift, getitem,
    open_r_request_toml, mbind, M_bind.
  simpl. rewrite Hl. done.
Qed.


(** X2. [get_params] leaves the file system and the sessions as they were,
    and prints at most the one [FileNotFoundError]. *)
Theorem get_params_frame (w : world) :
  let w' := snd (get_params w) in
  fs w' = fs w
  ∧ sessions_created w' = sessions_created w
  ∧ open_sessions w' = open_sessions w
  ∧ stdout w' = stdout w
             ++ match request_toml (fs w) with
                | None => [FileNotFoundError "request.toml"]
                | Some _ => []
                end.
Proof.
  cbv zeta. destruct (request_toml (fs w)) as [doc|] eqn:Ef.
  - rewrite app_nil_r.
    destruct (doc !! "scrape-params"%string) as [ps|] eqn:El.
    + by rewrite (get_params_present w doc ps).
    + by rewrite (get_params_no_table w doc).
  - by rewrite get_params_absent.
Qed.

(** X3. A [request.toml] without the table ['scrape-params']: the
    [KeyError] is not what the caller sees; the [finally] block reads the
    unbound [params] and [UnboundLocalError] takes its place. Nothing is
    printed. *)
Theorem get_params_missing_table (w : world) (doc : gmap string scrape_params) :
  request_toml (fs w) = Some doc →
  doc !! "scrape-params"%string = None →
  get_params w = (Raise (UnboundLocalError "params"), w).
Proof. apply get_params_no_table. Qed.

Lemma get_params_missing_table_witness :
  request_toml (fs (world_of fs_no_table)) = Some ∅
  ∧ (∅ : gmap string scrape_params) !! "scrape-params"%string = None
  ∧ get_params (world_of fs_no_table)
    = (Raise (UnboundLocalError "params"), world_of fs_no_table).
Proof.
  split; [reflexivity|]. split; [reflexivity|].
  apply (get_params_missing_table (world_of fs_no_table) ∅); reflexivity.
Defined.

(** ** More on initialization *)


(** X5. Initialization is idempotent: a second call changes nothing. *)
Theorem make_data_dir_idempotent (w : world) :
  (make_data_dir_if_not_exists ;; make_data_dir_if_not_exists) w
  = make_data_dir_if_not_exists w.
Proof.
  destruct w as [[doc o d] out n opened].
  destruct o as [[]|], d as [t|]; reflexivity.
Qed.

(** X6. Initialization touches nothing but [output] and the dataset file:
    the configuration file, the output so far and the sessions stay. *)
Theorem make_data_dir_frame (w : world) :
  let w' := snd (make_data_dir_if_not_exists w) in
  request_toml (fs w') = request_toml (fs w)
  ∧ stdout w' = stdout w
  ∧ sessions_created w' = sessions_created w
  ∧ open_sessions w' = open_sessions w
  ∧ row_count w' = row_count w.
Proof.
  destruct w as [[doc o d] out n opened].
  destruct o as [[]|], d as [t|]; done.
Qed.

(** ** More on the Store Writer *)


Lemma insert_data_unresolved (data : page_data) (w : world) (e : exn) :
  resolve_data (fs w) = Raise e → insert_data data w = (Raise e, w).
Proof.
  intros E. assert (is_EmptyDataError e = false) as He.
  { unfold resolve_data in E.
    destruct (output (fs w)) as [[]|]; [destruct (pubmed_data_csv (fs w))| |];
      by simplify_eq. }
  unfold insert_data, mbind, M_bind, try_except, read_csv. by rewrite E, He.
Qed.

(** X7. Without a dataset file the Store Writer does not create one: the
    error of the path lookup ([FileNotFoundError], or [NotADirectoryError]
    under an [output] that is a regular file) reaches the caller and the
    world is as before. *)
Theorem insert_data_missing_file (data : page_data) (w : world) (e : exn) :
  resolve_data (fs w) = Raise e →
  insert_data data w = (Raise e, w)
  ∧ (e = FileNotFoundError data_path ∨ e = NotADirectoryError data_path).
Proof.
  intros E. split; [by apply insert_data_unresolved|].
  unfold resolve_data in E.
  destruct (output (fs w)) as [[]|]; [destruct (pubmed_data_csv (fs w))| |];
    simplify_eq; auto.
Qed.

Lemma insert_data_missing_file_witness :
  resolve_data (fs (world_of fs_first_run)) = Raise (FileNotFoundError data_path)
  ∧ insert_data (page_dict (str "https://example.org/100") [conclusion_entry])
      (world_of fs_first_run)
    = (Raise (FileNotFoundError data_path), world_of fs_first_run).
Proof.
  split; [reflexivity|].
  apply (insert_data_missing_file
           (page_dict (str "https://example.org/100") [conclusion_entry])
           (world_of fs_first_run) (FileNotFoundError data_path)).
  reflexivity.
Defined.






Section Rows.

Context `{engine : HtmlEngine}.

(** X10. What a page contributes to the dataset: for the [i]-th element the
    selector matches, the row at position [i] behind the rows read; it
    carries the url of the page under [url] and, under [text], the section
    numbered [i] with the entry extracted from that element. *)
Theorem page_rows_follow_document_order
    (u : pystr) (response : Response) (sel : pystr) (w : world)
    (df : DataFrame) (i : nat) (p : Element) :
  resolve_data (fs w) = Normal (Rendered df) →
  find sel (html response) !! i = Some p →
  ∃ df' r,
    insert_data (page_dict u (parse_pub_entry_data response sel)) w
    = (Normal tt, set_fs (write_data (Rendered df')) w)
    ∧ rows df' !! (length (rows df) + i) = Some r
    ∧ r !! "url"%string = Some (CStr u)
    ∧ r !! "text"%string
      = Some (CSection {| section_index := i; section_entry := entry_of p |}).
Proof.
  intros E Hp. eexists _, _. split; [by apply insert_data_rendered|].
  cbn [concat rows from_dict page_dict d_text d_url].
  rewrite lookup_app_r by lia. rewrite Nat.add_comm, Nat.add_sub.
  rewrite list_lookup_fmap, list_lookup_imap, parse_pub_entry_data_map,
    list_lookup_fmap, Hp.
  split; [reflexivity|]. split.
  - apply lookup_insert_eq.
  - rewrite lookup_insert_ne by done. apply lookup_insert_eq.
Qed.

End Rows.

Lemma page_rows_follow_document_order_witness :
  let w := world_of (fs_with (Rendered df_one_row)) in
  let response := response_of 200 (page [p_conclusion; p_two_labels]) in
  resolve_data (fs w) = Normal (Rendered df_one_row)
  ∧ @find dom_engine (str "p") (html response) !! 1 = Some p_two_labels
  ∧ ∃ df' r,
      insert_data (page_dict (str "https://example.org/100")
                     (parse_pub_entry_data response (str "p"))) w
      = (Normal tt, set_fs (write_data (Rendered df')) w)
      ∧ rows df' !! (length (rows df_one_row) + 1) = Some r
      ∧ r !! "url"%string = Some (CStr (str "https://example.org/100"))
      ∧ r !! "text"%string
        = Some (CSection {| section_index := 1;
                            section_entry := @entry_of dom_engine p_two_labels |}).
Proof.
  split; [reflexivity|]. split; [reflexivity|].
  apply (@page_rows_follow_document_order dom_engine
           (str "https://example.org/100")
           (response_of 200 (page [p_conclusion; p_two_labels])) (str "p")
           (world_of (fs_with (Rendered df_one_row))) df_one_row 1 p_two_labels);
    reflexivity.
Defined.

(** ** More on the extractor *)

Lemma lstrip_sublist (s : pystr) : lstrip s `sublist_of` s.
Proof.
  destruct (lstrip_suffix s) as [pre E]. rewrite E at 2.
  by apply sublist_inserts_l.
Qed.

Lemma strip_sublist (s : pystr) : strip s `sublist_of` s.
Proof.
  unfold strip. etrans; [|apply lstrip_sublist].
  destruct (rstrip_prefix (lstrip s)) as [suf E]. rewrite E at 2.
  by apply sublist_inserts_r.
Qed.

Lemma replace_scan_sublist (k : nat) (old s : pystr) :
  replace_scan k old [] s `sublist_of` s.
Proof.
  revert k. induction s as [|c s IH]; intros k; [done|].
  cbn [replace_scan]. destruct k as [|k].
  - destruct (startswith (c :: s) old).
    + apply sublist_cons, IH.
    + apply sublist_skip, IH.
  - apply sublist_cons, IH.
Qed.

Lemma replace_sublist (s old : pystr) : replace s old [] `sublist_of` s.
Proof.
  destruct old as [|o old]; [by rewrite replace_empty|].
  apply replace_scan_sublist.
Qed.

Lemma startswith_length (s old : pystr) :
  startswith s old = true → length old ≤ length s.
Proof.
  revert s. induction old as [|o old IH]; intros [|c s] H; simpl in *;
    try done; try lia.
  apply andb_true_iff in H as [_ H]. apply IH in H. lia.
Qed.

Lemma str_find_occurs (s old : pystr) (n : nat) :
  str_find s old = Some n → occurs_at s old n = true.
Proof.
  unfold occurs_at. revert n. induction s as [|c s IH]; intros n H.
  - cbn [str_find] in H. destruct (startswith [] old) eqn:E; simplify_eq/=.
    done.
  - cbn [str_find] in H. destruct (startswith (c :: s) old) eqn:E.
    + by simplify_eq.
    + destruct (str_find s old) as [m|] eqn:F; simplify_eq/=. by apply IH.
Qed.

Section ExtractorBounds.

Context `{engine : HtmlEngine}.

(** X11. The body is made of characters of the element's text, in their
    order: extraction only deletes. *)
Theorem body_is_sublist_of_text (p : Element) :
  content_text (entry_of p) `sublist_of` text p
  ∧ length (content_text (entry_of p)) ≤ length (text p).
Proof.
  assert (content_text (entry_of p) `sublist_of` text p) as H.
  { cbn [entry_of content_text]. etrans; [apply strip_sublist|].
    apply replace_sublist. }
  split; [done|]. by apply sublist_length.
Qed.

(** X12. A label that occurs in the element's text costs the body at least
    its length. *)
Theorem found_label_shortens_body (p : Element) (n : nat) :
  str_find (text p) (bold_text (entry_of p)) = Some n →
  length (content_text (entry_of p)) + length (bold_text (entry_of p))
  ≤ length (text p).
Proof.
  cbn [entry_of bold_text content_text]. intros Hn.
  pose proof (sublist_length _ _ (strip_sublist (replace (text p) (label_of p) []))) as H1.
  destruct (label_of p) as [|c l] eqn:El.
  { pose proof (sublist_length _ _ (replace_sublist (text p) [])) as H2.
    cbn [length]. lia. }
  rewrite (replace_found _ _ _ n) in H1 by done. cbn [app] in H1.
  rewrite (replace_found _ _ _ n) by done. cbn [app].
  pose proof (sublist_length _ _
    (replace_sublist (drop (n + length (c :: l)) (text p)) (c :: l))) as H2.
  pose proof (startswith_length _ _ (str_find_occurs _ _ _ Hn)) as H3.
  rewrite length_app, length_take in H1. rewrite length_drop in H2, H3.
  lia.
Qed.

End ExtractorBounds.

Lemma found_label_shortens_body_witness :
  str_find (@text dom_engine p_conclusion)
    (bold_text (@entry_of dom_engine p_conclusion)) = Some 0
  ∧ length (content_text (@entry_of dom_engine p_conclusion))
    + length (bold_text (@entry_of dom_engine p_conclusion))
    ≤ length (@text dom_engine p_conclusion).
Proof.
  split; [reflexivity|].
  apply (@found_label_shortens_body dom_engine p_conclusion 0). reflexivity.
Defined.

Lemma body_single_occurrence_witness :
  bold_text (@entry_of dom_engine p_conclusion) ≠ []
  ∧ str_find (@text dom_engine p_conclusion)
      (bold_text (@entry_of dom_engine p_conclusion)) = Some 0
  ∧ str_find (drop (0 + length (bold_text (@entry_of dom_engine p_conclusion)))
                (@text dom_engine p_conclusion))
      (bold_text (@entry_of dom_engine p_conclusion)) = None
  ∧ content_text (@entry_of dom_engine p_conclusion)
    = strip (remove_first (@text dom_engine p_conclusion)
               (bold_text (@entry_of dom_engine p_conclusion))).
Proof.
  split; [discriminate|]. split; [reflexivity|]. split; [reflexivity|].
  apply (@body_single_occurrence dom_engine p_conclusion 0);
    [discriminate | reflexivity | reflexivity].
Defined.

(** ** More on the fetcher *)

Section FetcherPaths.

Context `{engine : HtmlEngine}.
Variable transport : pystr → outcome Response.

(** X14. An [HTTPError] raised by the block under [with] is raised at the
    [yield], inside the generator's [try]: [html_session] prints it, closes
    the session and leaves with [SystemExit(3)] in its place. Any other
    exception of the block passes through unprinted, the session closed. *)
Theorem block_exception_paths {A} (request_url : pystr)
    (body : Response → M world A) (w w' : world) (response : Response) (e : exn) :
  transport request_url = Normal response →
  body response (snd (HTMLSession w)) = (Raise e, w') →
  html_session transport request_url body w
  = if is_HTTPError e
    then (Raise (SystemExit 3),
          snd (session_close (sessions_created w) (snd (print e w'))))
    else (Raise e, snd (session_close (sessions_created w) w')).
Proof.
  intros Et Eb.
  unfold html_session, try_finally, try_except, session_get, mbind, M_bind.
  cbv beta iota. cbn [HTMLSession]. rewrite Et, status_check_always_passes.
  cbn [HTMLSession snd] in Eb. rewrite Eb. by destruct (is_HTTPError e).
Qed.

(** X15. A failing [session.get]: the block is not run; an [HTTPError] is
    printed and becomes [SystemExit(3)], any other exception (a refused
    connection, say) passes through unprinted; either way the session is
    closed and nothing else has changed. *)
Theorem transport_exception_paths {A} (request_url : pystr)
    (body : Response → M world A) (w : world) (e : exn) :
  transport request_url = Raise e →
  html_session transport request_url body w
  = (if is_HTTPError e then Raise (SystemExit 3) else Raise e,
     {| fs := fs w;
        stdout := stdout w ++ (if is_HTTPError e then [e] else []);
        sessions_created := S (sessions_created w);
        open_sessions := open_sessions w ∖ {[sessions_created w]} |}).
Proof.
  intros Et.
  unfold html_session, try_finally, try_except, session_get, mbind, M_bind.
  cbv beta iota. cbn [HTMLSession]. rewrite Et.
  destruct (is_HTTPError e); cbn; rewrite opened_then_closed, ?app_nil_r; done.
Qed.

End FetcherPaths.

Lemma block_exception_paths_witness :
  let w := world_of (fs_with Blank) in
  transport_ok (str "https://example.org/100")
  = Normal (response_of 200 (page [p_conclusion]))
  ∧ fst (@html_session dom_engine transport_ok unit
           (str "https://example.org/100") (fun _ => raise HTTPError) w)
    = Raise (SystemExit 3)
  ∧ stdout (snd (@html_session dom_engine transport_ok unit
                   (str "https://example.org/100") (fun _ => raise HTTPError) w))
    = [HTTPError].
Proof.
  split; [reflexivity|].
  rewrite (@block_exception_paths dom_engine transport_ok unit
             (str "https://example.org/100") (fun _ => raise HTTPError)
             (world_of (fs_with Blank)) (snd (HTMLSession (world_of (fs_with Blank))))
             (response_of 200 (page [p_conclusion])) HTTPError eq_refl eq_refl).
  split; reflexivity.
Defined.

Lemma transport_exception_paths_witness :
  transport_down (str "https://example.org/100") = Raise ConnectionError
  ∧ fst (@html_session dom_engine transport_down unit
           (str "https://example.org/100") (fun _ => mret tt)
           (world_of (fs_with Blank)))
    = Raise ConnectionError.
Proof.
  split; [reflexivity|].
  rewrite (@transport_exception_paths dom_engine transport_down unit
             (str "https://example.org/100") (fun _ => mret tt)
             (world_of (fs_with Blank)) ConnectionError eq_refl).
  reflexivity.
Defined.

(** ** Whole runs *)

Lemma readable_resolved (f : filesystem) :
  readable f = true →
  output f = Some Directory
  ∧ (resolve_data f = Normal Blank ∨ ∃ df, resolve_data f = Normal (Rendered df)).
Proof.
  unfold readable. destruct (resolve_data f) as [[|df|]|e] eqn:E; try done.
  - intros _. split; [by destruct (resolve_data_normal _ _ E)|by left].
  - intros _. split; [by destruct (resolve_data_normal _ _ E)|eauto].
Qed.

(** A write over a readable dataset file. *)
Lemma insert_data_readable (data : page_data) (w : world) :
  readable (fs w) = true →
  ∃ w', insert_data data w = (Normal tt, w')
      ∧ readable (fs w') = true
      ∧ row_count w' = row_count w + length (d_text data)
      ∧ request_toml (fs w') = request_toml (fs w)
      ∧ stdout w' = stdout w
      ∧ sessions_created w' = sessions_created w
      ∧ open_sessions w' = open_sessions w.
Proof.
  intros Hr. destruct (readable_resolved _ Hr) as [Ho [E|[df E]]].
  - eexists. split; [by apply insert_data_blank|].
    unfold readable, row_count. rewrite resolve_data_written, E by done.
    by rewrite from_dict_rows.
  - eexists. split; [by apply (insert_data_rendered _ _ df)|].
    unfold readable, row_count. rewrite resolve_data_written, E by done.
    cbn [concat rows]. by rewrite length_app, from_dict_rows.
Qed.

Lemma make_data_dir_readable (w : world) :
  output (fs w) ≠ Some RegularFile →
  resolve_data (fs w) ≠ Normal Ragged →
  ∃ w', make_data_dir_if_not_exists w = (Normal tt, w')
      ∧ readable (fs w') = true
      ∧ row_count w' = row_count w
      ∧ request_toml (fs w') = request_toml (fs w)
      ∧ stdout w' = stdout w
      ∧ sessions_created w' = sessions_created w
      ∧ open_sessions w' = open_sessions w.
Proof.
  destruct w as [[doc o d] out n opened].
  destruct o as [[]|], d as [[]|]; simpl; intros Ho Hd; try done;
    eexists; (split; [reflexivity|done]).
Qed.

Lemma for_each_app {S A} (xs ys : list A) (body : A → M S unit) (s : S) :
  for_each (xs ++ ys) body s = (for_each xs body ;; for_each ys body) s.
Proof.
  revert s. induction xs as [|x xs IH]; intros s; [done|].
  cbn [app for_each]. unfold mbind, M_bind in *.
  destruct (body x s) as [[[]|e] s']; [apply IH|done].
Qed.

Section WholeRun.

Context `{engine : HtmlEngine}.
Variable transport : pystr → outcome Response.

Lemma matches_cons (sel : pystr) (response : Response) (pages : list Response) :
  matches sel (response :: pages)
  = length (find sel (html response)) + matches sel pages.
Proof. done. Qed.

(** One round of the loop of [main] on a page that is served. *)
Lemma fetch_round (sel u : pystr) (response : Response) (w : world) :
  transport u = Normal response →
  readable (fs w) = true →
  ∃ w', html_session transport u
          (fun session_response =>
             insert_data (page_dict u (parse_pub_entry_data session_response sel)))
          w
        = (Normal tt, w')
      ∧ readable (fs w') = true
      ∧ row_count w' = row_count w + length (find sel (html response))
      ∧ stdout w' = stdout w
      ∧ sessions_created w' = S (sessions_created w).
Proof.
  intros Et Hr.
  destruct (insert_data_readable
              (page_dict u (parse_pub_entry_data response sel))
              (snd (HTMLSession w)) Hr)
    as (w1 & Hins & Hr1 & Hrows & _ & Hout & Hn & _).
  eexists. split; [by apply (html_session_normal transport u _ w w1 response tt)|].
  rewrite page_dict_sections in Hrows.
  repeat split; done.
Qed.

(** The loop of [main] over pages that are all served. *)
Lemma fetch_rounds (sel : pystr) (urls : list pystr) (pages : list Response)
    (w : world) :
  Forall2 (fun u response => transport u = Normal response) urls pages →
  readable (fs w) = true →
  ∃ w', for_each urls
          (fun u => html_session transport u
             (fun session_response =>
                insert_data (page_dict u (parse_pub_entry_data session_response sel))))
          w
        = (Normal tt, w')
      ∧ readable (fs w') = true
      ∧ row_count w' = row_count w + matches sel pages
      ∧ stdout w' = stdout w
      ∧ sessions_created w' = sessions_created w + length pages.
Proof.
  intros Hall. revert w.
  induction Hall as [|u response urls pages Et _ IH]; intros w Hr.
  - exists w. change (matches sel []) with 0. cbn [length].
    split; [reflexivity|]. repeat split; try done; lia.
  - destruct (fetch_round sel u response w Et Hr)
      as (w1 & Hrun & Hr1 & Hrows1 & Hout1 & Hn1).
    destruct (IH w1 Hr1) as (w2 & Hrest & Hr2 & Hrows2 & Hout2 & Hn2).
    exists w2. split.
    { cbn [for_each]. by erewrite bind_normal by exact Hrun. }
    rewrite matches_cons. cbn [length].
    repeat split; try done; try congruence; lia.
Qed.

(** X16. A run in which everything is there: the configuration with its
    table, [output] absent or a directory, a dataset file that is absent,
    empty or a table, and every page of the configuration served. [main]
    completes, has opened one session per code, has printed nothing, and the
    dataset has grown by the number of elements the selector matched, page
    by page. *)
Theorem main_run_completes (w : world) (doc : gmap string scrape_params)
    (ps : scrape_params) (pages : list Response) :
  request_toml (fs w) = Some doc →
  doc !! "scrape-params"%string = Some ps →
  output (fs w) ≠ Some RegularFile →
  resolve_data (fs w) ≠ Normal Ragged →
  Forall2 (fun code response => transport (url ps ++ code) = Normal response)
    (research_code ps) pages →
  let run := main transport w in
  fst run = Normal tt
  ∧ sessions_created (snd run) = sessions_created w + length (research_code ps)
  ∧ row_count (snd run) = row_count w + matches (selector ps) pages
  ∧ stdout (snd run) = stdout w.
Proof.
  intros Hf Hl Ho Hd Hall. cbv zeta.
  destruct (make_data_dir_readable w Ho Hd)
    as (w1 & Hinit & Hr1 & Hrows1 & Hf1 & Hout1 & Hn1 & _).
  assert (Forall2 (fun u response => transport u = Normal response)
            ((fun code => url ps ++ code) <$> research_code ps) pages) as Hall'.
  { by apply Forall2_fmap_l. }
  destruct (fetch_rounds (selector ps) _ pages w1 Hall' Hr1)
    as (w2 & Hloop & _ & Hrows2 & Hout2 & Hn2).
  unfold main. erewrite bind_normal by exact Hinit.
  erewrite bind_normal
    by (apply (get_params_present w1 doc ps); [by rewrite Hf1|done]).
  cbn [p_url p_selector]. rewrite Hloop. cbn [fst snd].
  pose proof (Forall2_length _ _ _ Hall) as Hlen. unfold pystr, codepoint in *.
  repeat split; try congruence; lia.
Qed.

(** X17. A run that meets a failing fetch: the codes before it are served
    and written, the failing one ends the run, and the codes behind it are
    never fetched. The run leaves with [SystemExit(3)] after printing the
    error when the transport raised [HTTPError], and with the exception of
    the transport otherwise. *)
Theorem main_halts_at_first_failure (w : world) (doc : gmap string scrape_params)
    (ps : scrape_params) (served : list pystr) (failing : pystr)
    (behind : list pystr) (pages : list Response) (e : exn) :
  request_toml (fs w) = Some doc →
  doc !! "scrape-params"%string = Some ps →
  output (fs w) ≠ Some RegularFile →
  resolve_data (fs w) ≠ Normal Ragged →
  research_code ps = served ++ failing :: behind →
  Forall2 (fun code response => transport (url ps ++ code) = Normal response)
    served pages →
  transport (url ps ++ failing) = Raise e →
  let run := main transport w in
  fst run = (if is_HTTPError e then Raise (SystemExit 3) else Raise e)
  ∧ sessions_created (snd run) = sessions_created w + length served + 1
  ∧ row_count (snd run) = row_count w + matches (selector ps) pages
  ∧ stdout (snd run) = stdout w ++ (if is_HTTPError e then [e] else []).
Proof.
  intros Hf Hl Ho Hd Hcodes Hall Hfail. cbv zeta.
  destruct (make_data_dir_readable w Ho Hd)
    as (w1 & Hinit & Hr1 & Hrows1 & Hf1 & Hout1 & Hn1 & _).
  assert (Forall2 (fun u response => transport u = Normal response)
            ((fun code => url ps ++ code) <$> served) pages) as Hall'.
  { by apply Forall2_fmap_l. }
  destruct (fetch_rounds (selector ps) _ pages w1 Hall' Hr1)
    as (w2 & Hloop & _ & Hrows2 & Hout2 & Hn2).
  unfold main. erewrite bind_normal by exact Hinit.
  erewrite bind_normal
    by (apply (get_params_present w1 doc ps); [by rewrite Hf1|done]).
  cbn [p_url p_selector]. rewrite Hcodes, fmap_app, for_each_app.
  erewrite bind_normal by exact Hloop.
  cbn [fmap list_fmap for_each].
  pose proof (Forall2_length _ _ _ Hall) as Hlen.
  destruct (is_HTTPError e) eqn:He.
  - destruct e; try discriminate He.
    erewrite bind_raise by (by apply html_session_http_error).
    cbn [fst snd sessions_created stdout HTMLSession print session_close].
    unfold row_count in *. cbn [fs]. unfold pystr, codepoint in *.
    repeat split; try congruence; try lia.
  - erewrite bind_raise by (by apply html_session_other_error).
    cbn [fst snd sessions_created stdout HTMLSession print session_close].
    unfold row_count in *. cbn [fs]. unfold pystr, codepoint in *.
    rewrite app_nil_r. repeat split; try congruence; try lia.
Qed.

End WholeRun.

Lemma make_data_dir_succeeds (w : world) :
  output (fs w) ≠ Some RegularFile →
  ∃ w', make_data_dir_if_not_exists w = (Normal tt, w')
      ∧ (∃ t, resolve_data (fs w') = Normal t)
      ∧ request_toml (fs w') = request_toml (fs w)
      ∧ stdout w' = stdout w
      ∧ sessions_created w' = sessions_created w.
Proof.
  destruct w as [[doc o d] out n opened].
  destruct o as [[]|], d as [t|]; simpl; intros Ho; try done;
    eexists; (split; [reflexivity|]); simpl; eauto.
Qed.

Section WholeRunFailures.

Context `{engine : HtmlEngine}.
Variable transport : pystr → outcome Response.

(** X18. A run without [request.toml], whatever else is there: the dataset
    directory and file are made first all the same, the error is printed, no
    session is opened, and the run ends with [UnboundLocalError], exit
    status 1. *)
Theorem main_without_config (w : world) :
  request_toml (fs w) = None →
  output (fs w) ≠ Some RegularFile →
  let run := main transport w in
  fst run = Raise (UnboundLocalError "params")
  ∧ exit_status (fst run) = 1%Z
  ∧ stdout (snd run) = stdout w ++ [FileNotFoundError "request.toml"]
  ∧ sessions_created (snd run) = sessions_created w
  ∧ ∃ t, resolve_data (fs (snd run)) = Normal t.
Proof.
  intros Hf Ho. cbv zeta.
  destruct (make_data_dir_succeeds w Ho) as (w1 & Hinit & Ht & Hf1 & Hout1 & Hn1).
  unfold main. erewrite bind_normal by exact Hinit.
  erewrite bind_raise by (apply get_params_absent; by rewrite Hf1).
  cbn [fst snd print stdout sessions_created fs exit_status].
  rewrite Hout1, Hn1. done.
Qed.

(** X19. A run under an [output] that is a regular file ends in
    initialization with [NotADirectoryError]: the configuration is not read,
    nothing is fetched, the world is as before. *)
Theorem main_output_not_a_directory (w : world) :
  output (fs w) = Some RegularFile →
  main transport w = (Raise (NotADirectoryError data_path), w).
Proof.
  intros Ho. unfold main. apply bind_raise.
  destruct w as [[doc o d] out n opened]. simpl in Ho. subst o.
  by destruct d.
Qed.

End WholeRunFailures.

Lemma main_run_completes_witness :
  let run := @main dom_engine transport_ok (world_of fs_first_run) in
  fst run = Normal tt
  ∧ sessions_created (snd run) = 2
  ∧ row_count (snd run) = 2
  ∧ stdout (snd run) = [].
Proof.
  apply (@main_run_completes dom_engine transport_ok (world_of fs_first_run)
           example_toml example_params
           [response_of 200 (page [p_conclusion]);
            response_of 200 (page [p_conclusion])]).
  - reflexivity.
  - reflexivity.
  - discriminate.
  - discriminate.
  - repeat constructor.
Defined.

Lemma main_halts_at_first_failure_witness :
  let run := @main dom_engine transport_second_fails (world_of fs_first_run) in
  fst run = Raise ConnectionError
  ∧ sessions_created (snd run) = 2
  ∧ row_count (snd run) = 1
  ∧ stdout (snd run) = [].
Proof.
  apply (@main_halts_at_first_failure dom_engine transport_second_fails
           (world_of fs_first_run) example_toml example_params
           [str "100"] (str "101") []
           [response_of 200 (page [p_conclusion])] ConnectionError).
  - reflexivity.
  - reflexivity.
  - discriminate.
  - discriminate.
  - reflexivity.
  - repeat constructor.
  - reflexivity.
Defined.

Lemma main_without_config_witness :
  let run := @main dom_engine transport_ok (world_of fs_no_config) in
  request_toml (fs (world_of fs_no_config)) = None
  ∧ fst run = Raise (UnboundLocalError "params")
  ∧ resolve_data (fs (snd run)) = Normal Blank.
Proof.
  split; [reflexivity|].
  destruct (@main_without_config dom_engine transport_ok (world_of fs_no_config)
              eq_refl) as (Hrun & _ & _ & _ & _); [discriminate|].
  split; [exact Hrun | reflexivity].
Defined.

Lemma main_output_not_a_directory_witness :
  output (fs (world_of fs_output_is_file)) = Some RegularFile
  ∧ @main dom_engine transport_ok (world_of fs_output_is_file)
    = (Raise (NotADirectoryError data_path), world_of fs_output_is_file).
Proof.
  split; [reflexivity|].
  apply (@main_output_not_a_directory dom_engine transport_ok
           (world_of fs_output_is_file)).
  reflexivity.
Defined.
